(** * catalyst.py: install SQLite, build program.c, launch the binary

    A shallow embedding of [examples/menu/catalyst.py].  The script talks to
    the outside world in three ways only: it asks [platform.system()] for the
    name of the host system, it prints lines, and it spawns shell commands
    with [subprocess.run(..., shell=True)] and looks at their return code.
    Each of these is recorded, in program order, in a log of events; the
    answers of the outside world (the host's system name and the return code
    of every spawned command) come from a [Host] that the script cannot
    change.  [sys.exit] is the only way the script leaves its straight line,
    so computations either end normally or with [SystemExit]. *)

From Stdlib Require Import String Ascii List ZArith Bool Lia.
Import ListNotations.

Open Scope string_scope.

(** ** The outside world *)

(** What the script did, in the order it did it. *)
Inductive event : Type :=
| PlatformSystem (name : string)
| Print (line : string)
| SubprocessRun (full_cmd : string) (returncode : Z).

(** [system] is what [platform.system()] answers on this host ("Windows",
    "Linux", "Darwin", "FreeBSD", ...).  [returncode k c] is the return code
    of command line [c] when it is the [k]-th command (from 0) that the
    script spawns. *)
Record Host : Type := {
  system : string;
  returncode : nat -> string -> Z
}.

(** ** Computations: a log, a host to read from, and [SystemExit] *)

Inductive outcome (A : Type) : Type :=
| Normal (a : A)
| SystemExit (code : Z).

Arguments Normal {A} a.
Arguments SystemExit {A} code.

Definition Py (A : Type) : Type := Host -> list event -> outcome A * list event.

Definition ret {A : Type} (a : A) : Py A :=
  fun _ log => (Normal a, log).

Definition bind {A B : Type} (m : Py A) (k : A -> Py B) : Py B :=
  fun h log =>
    match m h log with
    | (Normal a, log') => k a h log'
    | (SystemExit code, log') => (SystemExit code, log')
    end.

Declare Scope py_scope.
Delimit Scope py_scope with py.
Bind Scope py_scope with Py.

Notation "x <- m ;; k" := (bind m (fun x => k))
  (at level 61, m at next level, right associativity) : py_scope.
Notation "m ;; k" := (bind m (fun _ => k))
  (at level 61, right associativity) : py_scope.

Open Scope py_scope.

(** How many commands the log says were spawned so far. *)
Fixpoint spawned (log : list event) : nat :=
  match log with
  | [] => 0
  | SubprocessRun _ _ :: rest => S (spawned rest)
  | _ :: rest => spawned rest
  end.

(** [platform.system()] *)
Definition platform_system : Py string :=
  fun h log => (Normal (system h), (log ++ [PlatformSystem (system h)])%list).

(** [print(line)] *)
Definition print (line : string) : Py unit :=
  fun _ log => (Normal tt, (log ++ [Print line])%list).

(** [subprocess.run(full_cmd, shell=True).returncode] *)
Definition subprocess_run (full_cmd : string) : Py Z :=
  fun h log =>
    let rc := returncode h (spawned log) full_cmd in
    (Normal rc, (log ++ [SubprocessRun full_cmd rc])%list).

(** [sys.exit(code)] *)
Definition sys_exit {A : Type} (code : Z) : Py A :=
  fun _ log => (SystemExit code, log).

(** ** The script *)

(** The double quote character of the f-string in [run_command]. *)
Definition dquote : string := String "034"%char EmptyString.

(** The three module-level names. *)
Record Globals : Type := {
  c_program : string;
  output_exe : string;
  msys2_path : string
}.

(** The module body above the function definitions (lines 6-11). *)
Definition module_body (s : string) : Globals :=
  {| c_program := "program.c";
     output_exe := if s =? "Windows" then "program.exe" else "program";
     msys2_path := "F:\msys2\ucrt64.exe" |}.

Definition module_globals : Py Globals :=
  s <- platform_system ;;
  ret (module_body s).

(** The command line that [run_command] hands to the shell. *)
Definition full_cmd_of (g : Globals) (cmd : string) (use_msys : bool) : string :=
  if use_msys
  then msys2_path g ++ " -c " ++ dquote ++ cmd ++ dquote
  else cmd.

Definition run_command (g : Globals) (cmd : string) (use_msys : bool) : Py unit :=
  let full_cmd := full_cmd_of g cmd use_msys in
  print ("Running: " ++ full_cmd) ;;
  rc <- subprocess_run full_cmd ;;
  if negb (rc =? 0)%Z
  then print ("Command failed: " ++ cmd) ;; sys_exit 1
  else ret tt.

Definition install_sqlite (g : Globals) : Py unit :=
  system <- platform_system ;;
  if system =? "Windows" then
    print "Detected Windows, using MSYS2 UCRT64" ;;
    run_command g "pacman -S --needed mingw-w64-ucrt-x86_64-sqlite3" true
  else if system =? "Linux" then
    print "Detected Linux" ;;
    run_command g "sudo apt update && sudo apt install -y libsqlite3-dev" false
  else if system =? "Darwin" then
    print "Detected macOS" ;;
    run_command g "brew install sqlite" false
  else
    print ("Unsupported OS: " ++ system) ;;
    sys_exit 1.

Definition build_program (g : Globals) : Py unit :=
  system <- platform_system ;;
  if system =? "Windows" then
    run_command g ("gcc " ++ c_program g ++ " -o " ++ output_exe g ++ " -lsqlite3") true
  else
    run_command g ("gcc " ++ c_program g ++ " -o " ++ output_exe g ++ " -lsqlite3") false.

Definition launch_program (g : Globals) : Py unit :=
  print ("Launching " ++ output_exe g ++ "...") ;;
  s <- platform_system ;;
  if s =? "Windows" then
    run_command g ("./" ++ output_exe g) true
  else
    run_command g ("./" ++ output_exe g) false.

(** The [if __name__ == "__main__":] block. *)
Definition main (g : Globals) : Py unit :=
  install_sqlite g ;;
  build_program g ;;
  launch_program g.

(** The whole script: the module body, then the main block. *)
Definition script : Py unit :=
  g <- module_globals ;;
  main g.

(** ** Running the script as a process *)

(** The exit status of the interpreter: 0 when the script runs to its end,
    the argument of [sys.exit] otherwise. *)
Definition exit_status {A : Type} (o : outcome A) : Z :=
  match o with
  | Normal _ => 0%Z
  | SystemExit code => code
  end.

Definition run (h : Host) : outcome unit * list event := script h [].

(** The command lines handed to the shell, in order. *)
Fixpoint commands (log : list event) : list string :=
  match log with
  | [] => []
  | SubprocessRun c _ :: rest => c :: commands rest
  | _ :: rest => commands rest
  end.

(** The return codes seen, in order. *)
Fixpoint statuses (log : list event) : list Z :=
  match log with
  | [] => []
  | SubprocessRun _ rc :: rest => rc :: statuses rest
  | _ :: rest => statuses rest
  end.

(** The command lines with their return codes. *)
Fixpoint subprocesses (log : list event) : list (string * Z) :=
  match log with
  | [] => []
  | SubprocessRun c rc :: rest => (c, rc) :: subprocesses rest
  | _ :: rest => subprocesses rest
  end.

(** The lines printed, in order. *)
Fixpoint stdout (log : list event) : list string :=
  match log with
  | [] => []
  | Print line :: rest => line :: stdout rest
  | _ :: rest => stdout rest
  end.

(** The answers [platform.system()] gave, in order. *)
Fixpoint observed_systems (log : list event) : list string :=
  match log with
  | [] => []
  | PlatformSystem s :: rest => s :: observed_systems rest
  | _ :: rest => observed_systems rest
  end.

(** The globals of a host, as the module body computes them. *)
Definition globals_on (h : Host) : Globals := module_body (system h).

(** A host on which every command succeeds, and one on which the [n]-th
    spawned command (from 0) returns [rc] and every other succeeds. *)
Definition all_ok (name : string) : Host :=
  {| system := name; returncode := fun _ _ => 0%Z |}.

Definition fails_at (name : string) (n : nat) (rc : Z) : Host :=
  {| system := name;
     returncode := fun k _ => if Nat.eqb k n then rc else 0%Z |}.

(** ** Notions used in the statements and proofs below *)

(** The events of a call whose command returns [rc]. *)
Definition run_command_events (g : Globals) (cmd : string) (use_msys : bool)
    (rc : Z) : list event :=
  let full_cmd := full_cmd_of g cmd use_msys in
  if (rc =? 0)%Z
  then [Print ("Running: " ++ full_cmd); SubprocessRun full_cmd rc]
  else [Print ("Running: " ++ full_cmd); SubprocessRun full_cmd rc;
        Print ("Command failed: " ++ cmd)].

(** The systems the script knows how to install SQLite on. *)
Definition supported (s : string) : Prop :=
  s = "Windows" \/ s = "Linux" \/ s = "Darwin".

(** A run on a supported system, written out: the module body, then up to
    three calls of [run_command], stopping after the first whose command
    does not return 0.  [line] and [icmd] are what the install step prints
    and runs. *)
Definition three_steps (h : Host) (line icmd : string)
    : outcome unit * list event :=
  let s := system h in
  let g := globals_on h in
  let use_msys := s =? "Windows" in
  let bcmd := "gcc " ++ c_program g ++ " -o " ++ output_exe g ++ " -lsqlite3" in
  let lcmd := "./" ++ output_exe g in
  let r0 := returncode h 0 (full_cmd_of g icmd use_msys) in
  let r1 := returncode h 1 (full_cmd_of g bcmd use_msys) in
  let r2 := returncode h 2 (full_cmd_of g lcmd use_msys) in
  let log0 := ([PlatformSystem s; PlatformSystem s; Print line]
               ++ run_command_events g icmd use_msys r0)%list in
  let log1 := (log0 ++ PlatformSystem s
               :: run_command_events g bcmd use_msys r1)%list in
  let log2 := (log1 ++ Print ("Launching " ++ output_exe g ++ "...")
               :: PlatformSystem s
               :: run_command_events g lcmd use_msys r2)%list in
  if negb (r0 =? 0)%Z then (SystemExit 1%Z, log0)
  else if negb (r1 =? 0)%Z then (SystemExit 1%Z, log1)
  else if negb (r2 =? 0)%Z then (SystemExit 1%Z, log2)
  else (Normal tt, log2).

(** A line names a command line when the command line occurs in it. *)
Definition names (line c : string) : Prop :=
  exists pre post : string, line = pre ++ c ++ post.

(** A reading of the failure report that the script does not meet: after
    a command that did not return 0, the last line printed names the
    command line that was executed. *)
Definition failure_line_names_executed_command : Prop :=
  forall (g : Globals) (cmd : string) (use_msys : bool) (h : Host)
         (log : list event),
    returncode h (spawned log) (full_cmd_of g cmd use_msys) <> 0%Z ->
    names (last (stdout (snd (run_command g cmd use_msys h log))) "")
          (last (commands (snd (run_command g cmd use_msys h log))) "").

(** A host that differs from [fails_at "Linux" 1 2] only in what a fourth
    command would return. *)
Definition fails_at_1_and_3 : Host :=
  {| system := "Linux";
     returncode := fun k _ =>
       if Nat.eqb k 1 then 2%Z else if Nat.eqb k 3 then 7%Z else 0%Z |}.

(** Every command of the log was announced: the event just before it is
    the line [Running:] followed by that very command line. *)
Definition announced (log : list event) : Prop :=
  forall (pre : list event) (c : string) (rc : Z) (post : list event),
    log = (pre ++ SubprocessRun c rc :: post)%list ->
    exists pre' : list event,
      pre = (pre' ++ [Print ("Running: " ++ c)%string])%list.

(** A computation keeps a property of the log, however it ends. *)
Definition preserves (I : list event -> Prop) {A : Type} (m : Py A) : Prop :=
  forall (h : Host) (log : list event), I log -> I (snd (m h log)).

(** ** The script when [platform.system()] is asked anew at each call *)

(** The script never stores the answer of [platform.system()]: line 8 and
    each of the three steps call it again.  To see what that means, the
    script is embedded a second time over a host that may answer each call
    differently: [system_at k] is the answer to the [k]-th call (from 0) of
    a run.  Everything else is as above, and the events are the same. *)
Module Requery.

Record Host : Type := {
  system_at : nat -> string;
  returncode : nat -> string -> Z
}.

Definition Py (A : Type) : Type := Host -> list event -> outcome A * list event.

Definition ret {A : Type} (a : A) : Py A :=
  fun _ log => (Normal a, log).

Definition bind {A B : Type} (m : Py A) (k : A -> Py B) : Py B :=
  fun h log =>
    match m h log with
    | (Normal a, log') => k a h log'
    | (SystemExit code, log') => (SystemExit code, log')
    end.

Declare Scope requery_scope.
Delimit Scope requery_scope with requery.
Bind Scope requery_scope with Py.

Notation "x <- m ;; k" := (bind m (fun x => k))
  (at level 61, m at next level, right associativity) : requery_scope.
Notation "m ;; k" := (bind m (fun _ => k))
  (at level 61, right associativity) : requery_scope.

Local Open Scope requery_scope.

(** [platform.system()]: the answer to this call, the next after those in
    the log. *)
Definition platform_system : Py string :=
  fun h log =>
    let s := system_at h (List.length (observed_systems log)) in
    (Normal s, (log ++ [PlatformSystem s])%list).

(** [print(line)] *)
Definition print (line : string) : Py unit :=
  fun _ log => (Normal tt, (log ++ [Print line])%list).

(** [subprocess.run(full_cmd, shell=True).returncode] *)
Definition subprocess_run (full_cmd : string) : Py Z :=
  fun h log =>
    let rc := returncode h (spawned log) full_cmd in
    (Normal rc, (log ++ [SubprocessRun full_cmd rc])%list).

(** [sys.exit(code)] *)
Definition sys_exit {A : Type} (code : Z) : Py A :=
  fun _ log => (SystemExit code, log).

Definition module_globals : Py Globals :=
  s <- platform_system ;;
  ret (module_body s).

Definition run_command (g : Globals) (cmd : string) (use_msys : bool) : Py unit :=
  let full_cmd := full_cmd_of g cmd use_msys in
  print ("Running: " ++ full_cmd) ;;
  rc <- subprocess_run full_cmd ;;
  if negb (rc =? 0)%Z
  then print ("Command failed: " ++ cmd) ;; sys_exit 1
  else ret tt.

Definition install_sqlite (g : Globals) : Py unit :=
  system <- platform_system ;;
  if system =? "Windows" then
    print "Detected Windows, using MSYS2 UCRT64" ;;
    run_command g "pacman -S --needed mingw-w64-ucrt-x86_64-sqlite3" true
  else if system =? "Linux" then
    print "Detected Linux" ;;
    run_command g "sudo apt update && sudo apt install -y libsqlite3-dev" false
  else if system =? "Darwin" then
    print "Detected macOS" ;;
    run_command g "brew install sqlite" false
  else
    print ("Unsupported OS: " ++ system) ;;
    sys_exit 1.

Definition build_program (g : Globals) : Py unit :=
  system <- platform_system ;;
  if system =? "Windows" then
    run_command g ("gcc " ++ c_program g ++ " -o " ++ output_exe g ++ " -lsqlite3") true
  else
    run_command g ("gcc " ++ c_program g ++ " -o " ++ output_exe g ++ " -lsqlite3") false.

Definition launch_program (g : Globals) : Py unit :=
  print ("Launching " ++ output_exe g ++ "...") ;;
  s <- platform_system ;;
  if s =? "Windows" then
    run_command g ("./" ++ output_exe g) true
  else
    run_command g ("./" ++ output_exe g) false.

Definition main (g : Globals) : Py unit :=
  install_sqlite g ;;
  build_program g ;;
  launch_program g.

Definition script : Py unit :=
  g <- module_globals ;;
  main g.

Definition run (h : Host) : outcome unit * list event := script h [].

End Requery.



(** A host that answers "Windows" to the first call and "Linux" after. *)
Definition windows_then_linux : Requery.Host :=
  {| Requery.system_at := fun k => if Nat.eqb k 0 then "Windows" else "Linux";
     Requery.returncode := fun _ _ => 0%Z |}.


(** * Properties *)

(** ** The projections of a log distribute over [++] *)

Lemma spawned_app (l1 l2 : list event) :
  spawned (l1 ++ l2) = (spawned l1 + spawned l2)%nat.
Proof.
  induction l1 as [|e l1 IH]; [reflexivity|].
  destruct e; simpl; rewrite IH; reflexivity.
Qed.

Lemma commands_app (l1 l2 : list event) :
  commands (l1 ++ l2) = (commands l1 ++ commands l2)%list.
Proof.
  induction l1 as [|e l1 IH]; [reflexivity|].
  destruct e; simpl; rewrite IH; reflexivity.
Qed.

Lemma statuses_app (l1 l2 : list event) :
  statuses (l1 ++ l2) = (statuses l1 ++ statuses l2)%list.
Proof.
  induction l1 as [|e l1 IH]; [reflexivity|].
  destruct e; simpl; rewrite IH; reflexivity.
Qed.

Lemma stdout_app (l1 l2 : list event) :
  stdout (l1 ++ l2) = (stdout l1 ++ stdout l2)%list.
Proof.
  induction l1 as [|e l1 IH]; [reflexivity|].
  destruct e; simpl; rewrite IH; reflexivity.
Qed.

Lemma observed_systems_app (l1 l2 : list event) :
  observed_systems (l1 ++ l2) = (observed_systems l1 ++ observed_systems l2)%list.
Proof.
  induction l1 as [|e l1 IH]; [reflexivity|].
  destruct e; simpl; rewrite IH; reflexivity.
Qed.

(** ** What one call of [run_command] does *)

Lemma run_command_eq (g : Globals) (cmd : string) (use_msys : bool)
    (h : Host) (log : list event) :
  let rc := returncode h (spawned log) (full_cmd_of g cmd use_msys) in
  run_command g cmd use_msys h log =
    ((if (rc =? 0)%Z then Normal tt else SystemExit 1%Z),
     (log ++ run_command_events g cmd use_msys rc)%list).
Proof.
  unfold run_command, run_command_events, bind, print, subprocess_run, sys_exit, ret.
  cbv zeta. rewrite spawned_app, Nat.add_0_r.
  destruct (returncode h (spawned log) (full_cmd_of g cmd use_msys) =? 0)%Z;
    cbn [negb]; rewrite <- ?app_assoc; reflexivity.
Qed.

Lemma run_command_commands (g : Globals) (cmd : string) (use_msys : bool)
    (h : Host) (log : list event) :
  commands (snd (run_command g cmd use_msys h log)) =
    (commands log ++ [full_cmd_of g cmd use_msys])%list.
Proof.
  rewrite run_command_eq. cbv zeta. cbn [snd]. rewrite commands_app.
  unfold run_command_events.
  destruct (_ =? 0)%Z; reflexivity.
Qed.

(** ** What the three steps do, in terms of [run_command] *)

(** Comparisons of two string literals are evaluated. *)
Ltac eval_eqb :=
  repeat match goal with
         | |- context [String.eqb ?a ?b] =>
             let v := eval vm_compute in (String.eqb a b) in
             progress change (String.eqb a b) with v
         end;
  cbv beta iota.

(** [build_program] and [launch_program] make the same call in both
    branches, up to [use_msys]; it is set exactly on Windows. *)
Lemma build_program_eq (g : Globals) (h : Host) (log : list event) :
  build_program g h log =
    run_command g ("gcc " ++ c_program g ++ " -o " ++ output_exe g ++ " -lsqlite3")
      (system h =? "Windows") h (log ++ [PlatformSystem (system h)])%list.
Proof.
  unfold build_program, bind, platform_system.
  destruct (system h =? "Windows"); reflexivity.
Qed.

Lemma launch_program_eq (g : Globals) (h : Host) (log : list event) :
  launch_program g h log =
    run_command g ("./" ++ output_exe g) (system h =? "Windows") h
      (log ++ [Print ("Launching " ++ output_exe g ++ "...");
               PlatformSystem (system h)])%list.
Proof.
  unfold launch_program, bind, platform_system, print.
  rewrite <- app_assoc.
  destruct (system h =? "Windows"); reflexivity.
Qed.

Lemma install_sqlite_windows (g : Globals) (h : Host) (log : list event) :
  system h = "Windows" ->
  install_sqlite g h log =
    run_command g "pacman -S --needed mingw-w64-ucrt-x86_64-sqlite3" true h
      (log ++ [PlatformSystem "Windows";
               Print "Detected Windows, using MSYS2 UCRT64"])%list.
Proof.
  intros Hs. unfold install_sqlite, bind, platform_system, print.
  rewrite Hs. eval_eqb. rewrite <- app_assoc. reflexivity.
Qed.

Lemma install_sqlite_linux (g : Globals) (h : Host) (log : list event) :
  system h = "Linux" ->
  install_sqlite g h log =
    run_command g "sudo apt update && sudo apt install -y libsqlite3-dev" false h
      (log ++ [PlatformSystem "Linux"; Print "Detected Linux"])%list.
Proof.
  intros Hs. unfold install_sqlite, bind, platform_system, print.
  rewrite Hs. eval_eqb. rewrite <- app_assoc. reflexivity.
Qed.

Lemma install_sqlite_darwin (g : Globals) (h : Host) (log : list event) :
  system h = "Darwin" ->
  install_sqlite g h log =
    run_command g "brew install sqlite" false h
      (log ++ [PlatformSystem "Darwin"; Print "Detected macOS"])%list.
Proof.
  intros Hs. unfold install_sqlite, bind, platform_system, print.
  rewrite Hs. eval_eqb. rewrite <- app_assoc. reflexivity.
Qed.

Lemma install_sqlite_unsupported (g : Globals) (h : Host) (log : list event) :
  ~ supported (system h) ->
  install_sqlite g h log =
    (SystemExit 1%Z,
     (log ++ [PlatformSystem (system h);
              Print ("Unsupported OS: " ++ system h)])%list).
Proof.
  unfold supported. intros Hs.
  unfold install_sqlite, bind, platform_system, print, sys_exit.
  destruct (String.eqb_spec (system h) "Windows") as [E|_]; [tauto|].
  destruct (String.eqb_spec (system h) "Linux") as [E|_]; [tauto|].
  destruct (String.eqb_spec (system h) "Darwin") as [E|_]; [tauto|].
  rewrite <- app_assoc. reflexivity.
Qed.

(** The script is the module body followed by the three steps, each run
    only when the one before it ended normally. *)
Lemma run_eq (h : Host) :
  run h =
    let g := globals_on h in
    match install_sqlite g h [PlatformSystem (system h)] with
    | (Normal _, log1) =>
        match build_program g h log1 with
        | (Normal _, log2) => launch_program g h log2
        | (SystemExit code, log2) => (SystemExit code, log2)
        end
    | (SystemExit code, log1) => (SystemExit code, log1)
    end.
Proof. reflexivity. Qed.

Lemma supported_dec (s : string) : {supported s} + {~ supported s}.
Proof.
  unfold supported.
  destruct (string_dec s "Windows"); [left; tauto|].
  destruct (string_dec s "Linux"); [left; tauto|].
  destruct (string_dec s "Darwin"); [left; tauto|].
  right; tauto.
Qed.

(** On a supported system the install step is one [print] and one
    [run_command]; which ones depends on the system's name only, and the
    command goes through MSYS2 exactly on Windows. *)
Lemma install_sqlite_supported (s : string) :
  supported s ->
  exists line icmd : string,
    forall (g : Globals) (h : Host) (log : list event),
      system h = s ->
      install_sqlite g h log =
        run_command g icmd (s =? "Windows") h
          (log ++ [PlatformSystem s; Print line])%list.
Proof.
  intros [-> | [-> | ->]]; do 2 eexists; intros g h log Hs; eval_eqb.
  - apply install_sqlite_windows, Hs.
  - apply install_sqlite_linux, Hs.
  - apply install_sqlite_darwin, Hs.
Qed.

(** ** The shape of a whole run *)

Lemma run_supported (s : string) :
  supported s ->
  exists line icmd : string,
    forall h : Host, system h = s -> run h = three_steps h line icmd.
Proof.
  intros Hsup.
  destruct (install_sqlite_supported s Hsup) as (line & icmd & Hinstall).
  exists line, icmd. intros h Hs.
  rewrite run_eq. cbv zeta.
  rewrite (Hinstall _ h _ Hs), run_command_eq. cbv zeta.
  unfold three_steps. cbv zeta. rewrite Hs.
  change (spawned ([PlatformSystem s] ++ [PlatformSystem s; Print line]))
    with 0%nat.
  set (g := globals_on h).
  set (u := s =? "Windows").
  set (r0 := returncode h 0 (full_cmd_of g icmd u)).
  assert (Hn0 : spawned ([PlatformSystem s; PlatformSystem s; Print line]
                         ++ run_command_events g icmd u r0) = 1%nat).
  { unfold run_command_events. destruct (r0 =? 0)%Z; reflexivity. }
  destruct (r0 =? 0)%Z eqn:E0; cbn [negb]; [|reflexivity].
  rewrite build_program_eq, run_command_eq. cbv zeta. rewrite Hs. fold u.
  rewrite spawned_app, Nat.add_0_r.
  change ([PlatformSystem s] ++ [PlatformSystem s; Print line])%list
    with [PlatformSystem s; PlatformSystem s; Print line].
  rewrite Hn0.
  set (bcmd := "gcc " ++ c_program g ++ " -o " ++ output_exe g ++ " -lsqlite3").
  set (r1 := returncode h 1 (full_cmd_of g bcmd u)).
  rewrite <- app_assoc.
  change ([PlatformSystem s] ++ run_command_events g bcmd u r1)%list
    with (PlatformSystem s :: run_command_events g bcmd u r1).
  set (log0 := ([PlatformSystem s; PlatformSystem s; Print line]
                ++ run_command_events g icmd u r0)%list) in *.
  assert (Hn1 : spawned (log0 ++ PlatformSystem s
                         :: run_command_events g bcmd u r1) = 2%nat).
  { rewrite spawned_app, Hn0. unfold run_command_events.
    destruct (r1 =? 0)%Z; reflexivity. }
  destruct (r1 =? 0)%Z eqn:E1; cbn [negb]; [|reflexivity].
  rewrite launch_program_eq, run_command_eq. cbv zeta. rewrite Hs. fold u.
  rewrite spawned_app, Nat.add_0_r, Hn1.
  set (lcmd := "./" ++ output_exe g).
  set (r2 := returncode h 2 (full_cmd_of g lcmd u)).
  rewrite <- app_assoc.
  destruct (r2 =? 0)%Z eqn:E2; reflexivity.
Qed.

Lemma run_unsupported (h : Host) :
  ~ supported (system h) ->
  run h =
    (SystemExit 1%Z,
     [PlatformSystem (system h); PlatformSystem (system h);
      Print ("Unsupported OS: " ++ system h)]).
Proof.
  intros Hs. rewrite run_eq. cbv zeta.
  rewrite install_sqlite_unsupported by exact Hs. reflexivity.
Qed.

(** ** The install step *)

(** C3. On each of the three supported systems the install step hands the
    shell exactly one command line, the package-manager call of that
    system and nothing else: pacman (inside MSYS2) on Windows, apt on Linux,
    brew on macOS, whose [platform.system()] is "Darwin".  This holds
    whatever the command returns and whatever happened before. *)
Theorem install_sqlite_selects_package_manager
    (g : Globals) (rc : nat -> string -> Z) (log : list event) :
  commands (snd (install_sqlite g {| system := "Windows"; returncode := rc |} log)) =
    (commands log ++
     [(msys2_path g ++ " -c " ++ dquote
       ++ "pacman -S --needed mingw-w64-ucrt-x86_64-sqlite3" ++ dquote)%string])%list
  /\ commands (snd (install_sqlite g {| system := "Linux"; returncode := rc |} log)) =
    (commands log ++
     ["sudo apt update && sudo apt install -y libsqlite3-dev"])%list
  /\ commands (snd (install_sqlite g {| system := "Darwin"; returncode := rc |} log)) =
    (commands log ++ ["brew install sqlite"])%list.
Proof.
  rewrite install_sqlite_windows, install_sqlite_linux, install_sqlite_darwin
    by reflexivity.
  rewrite !run_command_commands, !commands_app.
  cbn [commands full_cmd_of]. rewrite !app_nil_r. auto.
Qed.

(** ** Linux and Windows, step by step *)

(** C5. On Linux the install step runs exactly
    [sudo apt update && sudo apt install -y libsqlite3-dev], the build step
    exactly [gcc program.c -o program -lsqlite3] and the launch step exactly
    [./program]: the command lines reach the shell as they are, without the
    MSYS2 prefix.  The last part is the whole run when all three succeed. *)
Theorem linux_commands (rc : nat -> string -> Z) (log : list event) :
  let h := {| system := "Linux"; returncode := rc |} in
  let g := globals_on h in
  commands (snd (install_sqlite g h log)) =
    (commands log ++ ["sudo apt update && sudo apt install -y libsqlite3-dev"])%list
  /\ commands (snd (build_program g h log)) =
    (commands log ++ ["gcc program.c -o program -lsqlite3"])%list
  /\ commands (snd (launch_program g h log)) =
    (commands log ++ ["./program"])%list
  /\ commands (snd (run (all_ok "Linux"))) =
    ["sudo apt update && sudo apt install -y libsqlite3-dev";
     "gcc program.c -o program -lsqlite3";
     "./program"].
Proof.
  cbv zeta.
  rewrite install_sqlite_linux, build_program_eq, launch_program_eq
    by reflexivity.
  rewrite !run_command_commands, !commands_app.
  cbn [commands]. rewrite !app_nil_r.
  repeat split; reflexivity.
Qed.

(** C6. On Windows the three command lines all reach the shell as
    [F:\msys2\ucrt64.exe -c "<command>"], so they run inside MSYS2 UCRT64,
    and the name of the binary, [program.exe], ends in [.exe]. *)
Theorem windows_commands (rc : nat -> string -> Z) (log : list event) :
  let h := {| system := "Windows"; returncode := rc |} in
  let g := globals_on h in
  commands (snd (install_sqlite g h log)) =
    (commands log ++
     [("F:\msys2\ucrt64.exe -c " ++ dquote
       ++ "pacman -S --needed mingw-w64-ucrt-x86_64-sqlite3" ++ dquote)%string])%list
  /\ commands (snd (build_program g h log)) =
    (commands log ++
     [("F:\msys2\ucrt64.exe -c " ++ dquote
       ++ "gcc program.c -o program.exe -lsqlite3" ++ dquote)%string])%list
  /\ commands (snd (launch_program g h log)) =
    (commands log ++
     [("F:\msys2\ucrt64.exe -c " ++ dquote ++ "./program.exe" ++ dquote)%string])%list
  /\ output_exe g = "program" ++ ".exe".
Proof.
  cbv zeta.
  rewrite install_sqlite_windows, build_program_eq, launch_program_eq
    by reflexivity.
  rewrite !run_command_commands, !commands_app.
  cbn [commands]. rewrite !app_nil_r.
  repeat split; reflexivity.
Qed.

(** ** The binary that is built is the binary that is launched *)

(** C9. Whatever the system and whatever the globals hold, the name after
    [-o] in the build command and the name after [./] in the launch command
    are the same [output_exe g], and in a run [g] is the one record the
    module body made at startup. *)
Theorem build_and_launch_use_output_exe
    (g : Globals) (h : Host) (log1 log2 : list event) :
  commands (snd (build_program g h log1)) =
    (commands log1 ++
     [full_cmd_of g
        ("gcc " ++ c_program g ++ " -o " ++ output_exe g ++ " -lsqlite3")%string
        (system h =? "Windows")%string])%list
  /\ commands (snd (launch_program g h log2)) =
    (commands log2 ++
     [full_cmd_of g ("./" ++ output_exe g)%string
        (system h =? "Windows")%string])%list
  /\ run h = main (globals_on h) h [PlatformSystem (system h)].
Proof.
  rewrite build_program_eq, launch_program_eq.
  rewrite !run_command_commands, !commands_app.
  cbn [commands]. rewrite !app_nil_r.
  repeat split; reflexivity.
Qed.

(** ** A failing command *)

Lemma length_append (s1 s2 : string) :
  String.length (s1 ++ s2) = (String.length s1 + String.length s2)%nat.
Proof.
  induction s1 as [|c s1 IH]; [reflexivity|].
  cbn [append String.length]. rewrite IH. reflexivity.
Qed.

(** C7 does not hold with [use_msys]: the shell gets
    [F:\msys2\ucrt64.exe -c "./program.exe"], the line printed is
    [Command failed: ./program.exe], which is shorter than that command
    line and so cannot contain it. *)
Lemma failure_line_omits_msys_wrapper :
  ~ failure_line_names_executed_command.
Proof.
  intros H.
  pose (c := "F:\msys2\ucrt64.exe -c " ++ dquote ++ "./program.exe" ++ dquote).
  assert (Hc : String.length c = 38%nat) by reflexivity.
  assert (E : names "Command failed: ./program.exe" c).
  { apply (H (module_body "Windows") "./program.exe" true
             (fails_at "Windows" 0 1) []).
    cbn. discriminate. }
  destruct E as (pre & post & E).
  apply (f_equal String.length) in E.
  rewrite !length_append, Hc in E.
  cbn [String.length] in E. lia.
Qed.

(** C7, with the command as passed in instead of the command line
    executed.  When the command does not return 0, [run_command] does
    exactly this and no more: it prints [Running:] with the command line it
    executes, runs it once, prints [Command failed:] followed by the
    command as it was passed in (so without the MSYS2 prefix and quotes
    when [use_msys] is set), and ends the program with [sys.exit(1)]. *)
Theorem run_command_failure
    (g : Globals) (cmd : string) (use_msys : bool) (h : Host)
    (log : list event) :
  returncode h (spawned log) (full_cmd_of g cmd use_msys) <> 0%Z ->
  run_command g cmd use_msys h log =
    (SystemExit 1%Z,
     (log ++
      [Print ("Running: " ++ full_cmd_of g cmd use_msys)%string;
       SubprocessRun (full_cmd_of g cmd use_msys)
         (returncode h (spawned log) (full_cmd_of g cmd use_msys));
       Print ("Command failed: " ++ cmd)%string])%list).
Proof.
  intros Hrc. rewrite run_command_eq. cbv zeta.
  unfold run_command_events.
  apply Z.eqb_neq in Hrc. rewrite Hrc. reflexivity.
Qed.

Lemma run_command_failure_witness :
  run_command (module_body "Windows") "./program.exe" true
    (fails_at "Windows" 0 1) [] =
    (SystemExit 1%Z,
     [Print ("Running: F:\msys2\ucrt64.exe -c " ++ dquote ++ "./program.exe"
             ++ dquote)%string;
      SubprocessRun ("F:\msys2\ucrt64.exe -c " ++ dquote ++ "./program.exe"
                     ++ dquote)%string 1%Z;
      Print "Command failed: ./program.exe"]).
Proof.
  apply (run_command_failure (module_body "Windows") "./program.exe" true
           (fails_at "Windows" 0 1) []).
  vm_compute. discriminate.
Defined.

(** ** An unsupported system *)

(** C4. On a system that is none of "Windows", "Linux" and "Darwin" the
    run ends with exit status 1, has handed no command to the shell, and
    has printed one line, [Unsupported OS:] with the system's name. *)
Theorem unsupported_os_exits_before_any_command (h : Host) :
  ~ supported (system h) ->
  exit_status (fst (run h)) = 1%Z
  /\ commands (snd (run h)) = []
  /\ stdout (snd (run h)) = ["Unsupported OS: " ++ system h].
Proof.
  intros Hs. rewrite run_unsupported by exact Hs.
  repeat split; reflexivity.
Qed.

Lemma freebsd_not_supported : ~ supported "FreeBSD".
Proof. unfold supported. intros [E | [E | E]]; discriminate E. Qed.

Lemma unsupported_os_exits_before_any_command_witness :
  exit_status (fst (run (all_ok "FreeBSD"))) = 1%Z
  /\ commands (snd (run (all_ok "FreeBSD"))) = []
  /\ stdout (snd (run (all_ok "FreeBSD"))) = ["Unsupported OS: FreeBSD"].
Proof.
  apply (unsupported_os_exits_before_any_command (all_ok "FreeBSD")).
  exact freebsd_not_supported.
Defined.

(** ** Whole runs *)

Lemma subprocesses_app (l1 l2 : list event) :
  subprocesses (l1 ++ l2) = (subprocesses l1 ++ subprocesses l2)%list.
Proof.
  induction l1 as [|e l1 IH]; [reflexivity|].
  destruct e; simpl; rewrite IH; reflexivity.
Qed.

(** Case analysis on the return codes that a goal tests against 0: each
    is given a name first, so that it stays one value. *)
Ltac split_returncodes :=
  repeat match goal with
         | |- context [returncode ?h ?k ?c] =>
             let r := fresh "r" in
             set (r := returncode h k c); clearbody r
         end;
  repeat match goal with
         | |- context [(?r =? 0)%Z] =>
             let E := fresh "E" in
             destruct (r =? 0)%Z eqn:E;
             [apply Z.eqb_eq in E | apply Z.eqb_neq in E]
         end.

(** The projections of a log made of explicit events. *)
Ltac project_log :=
  rewrite ?subprocesses_app, ?commands_app, ?statuses_app, ?stdout_app,
    ?observed_systems_app;
  cbn [subprocesses commands statuses stdout observed_systems app
       fst snd exit_status negb List.length].

(** C1. Take any run and any command it executed, the [n]-th (from 0; on a
    supported system these are the install, build and launch commands, in
    this order).  If that command returned something other than 0, it is
    the last command of the run, so no later step ran its command, and the
    exit status of the process is 1. *)
Theorem failing_step_ends_the_run
    (h : Host) (n : nat) (c : string) (rc : Z) :
  nth_error (subprocesses (snd (run h))) n = Some (c, rc) ->
  rc <> 0%Z ->
  List.length (subprocesses (snd (run h))) = S n
  /\ exit_status (fst (run h)) = 1%Z.
Proof.
  destruct (supported_dec (system h)) as [Hs | Hs].
  - destruct (run_supported _ Hs) as (line & icmd & Hrun).
    rewrite (Hrun h eq_refl). unfold three_steps, run_command_events.
    cbv zeta. split_returncodes; project_log;
      destruct n as [|[|[|n]]]; cbn [nth_error];
      intros Hn Hrc; try discriminate Hn;
      try (injection Hn as <- <-); try congruence; try (split; reflexivity);
      try (destruct n; discriminate Hn).
  - rewrite run_unsupported by exact Hs. cbn [snd subprocesses].
    intros Hn. destruct n; discriminate Hn.
Qed.

Lemma failing_step_ends_the_run_witness :
  nth_error (subprocesses (snd (run (fails_at "Linux" 1 2)))) 1 =
    Some ("gcc program.c -o program -lsqlite3", 2%Z)
  /\ List.length (subprocesses (snd (run (fails_at "Linux" 1 2)))) = 2%nat
  /\ exit_status (fst (run (fails_at "Linux" 1 2))) = 1%Z.
Proof.
  split; [reflexivity|].
  apply (failing_step_ends_the_run (fails_at "Linux" 1 2) 1
           "gcc program.c -o program -lsqlite3" 2).
  - reflexivity.
  - discriminate.
Defined.

(** C2. On a supported system, if every command the run executed returned
    0, then all three commands were executed, the exit status is 0, and the
    last thing the script did was to run the binary it built: [./program],
    or [./program.exe] inside MSYS2 on Windows. *)
Theorem successful_run_ends_with_launch (h : Host) :
  supported (system h) ->
  Forall (fun rc => rc = 0%Z) (statuses (snd (run h))) ->
  exit_status (fst (run h)) = 0%Z
  /\ List.length (commands (snd (run h))) = 3%nat
  /\ last (snd (run h)) (Print "") =
       SubprocessRun
         (if system h =? "Windows"
          then "F:\msys2\ucrt64.exe -c " ++ dquote ++ "./program.exe" ++ dquote
          else "./program")
         0%Z.
Proof.
  intros Hs.
  destruct (run_supported _ Hs) as (line & icmd & Hrun).
  rewrite (Hrun h eq_refl). unfold three_steps, run_command_events.
  cbv zeta.
  assert (Hlaunch :
    full_cmd_of (globals_on h) ("./" ++ output_exe (globals_on h))
      (system h =? "Windows") =
    if system h =? "Windows"
    then "F:\msys2\ucrt64.exe -c " ++ dquote ++ "./program.exe" ++ dquote
    else "./program").
  { unfold globals_on, module_body, full_cmd_of. cbn [output_exe msys2_path].
    destruct (system h =? "Windows"); reflexivity. }
  rewrite Hlaunch. clear Hlaunch.
  split_returncodes; project_log; intros Hall;
    repeat match goal with
           | H : Forall _ (_ :: _) |- _ => inversion H; subst; clear H
           end;
    try contradiction.
  repeat split; reflexivity.
Qed.

Lemma successful_run_ends_with_launch_witness :
  exit_status (fst (run (all_ok "Windows"))) = 0%Z
  /\ List.length (commands (snd (run (all_ok "Windows")))) = 3%nat
  /\ last (snd (run (all_ok "Windows"))) (Print "") =
       SubprocessRun
         ("F:\msys2\ucrt64.exe -c " ++ dquote ++ "./program.exe" ++ dquote)
         0%Z.
Proof.
  apply (successful_run_ends_with_launch (all_ok "Windows")).
  - left. reflexivity.
  - vm_compute. repeat constructor.
Defined.

(** ** The system's name is asked for at every step *)











(** Nothing makes the steps agree but the answers themselves: with
    "Windows" as first answer and "Linux" after, the binary is named
    [program.exe] and yet installed, built and launched as on Linux. *)
Lemma steps_follow_their_own_answer :
  commands (snd (Requery.run windows_then_linux)) =
    ["sudo apt update && sudo apt install -y libsqlite3-dev";
     "gcc program.c -o program.exe -lsqlite3";
     "./program.exe"].
Proof. reflexivity. Qed.



(** ** Determinism *)

(** Two hosts with the same system name, on which the commands that were
    executed returned the same codes, see the same run, event for event. *)
Lemma same_answers_same_run (h1 h2 : Host) :
  system h1 = system h2 ->
  statuses (snd (run h1)) = statuses (snd (run h2)) ->
  run h1 = run h2.
Proof.
  intros Hsys.
  destruct (supported_dec (system h1)) as [Hs | Hs].
  - destruct (run_supported _ Hs) as (line & icmd & Hrun).
    rewrite (Hrun h1 eq_refl), (Hrun h2 (eq_sym Hsys)).
    unfold three_steps, run_command_events, globals_on.
    rewrite <- Hsys. cbv zeta.
    split_returncodes; project_log; intros Hst;
      try discriminate Hst;
      repeat match goal with
             | H : (_ :: _)%list = (_ :: _)%list |- _ =>
                 injection H as ? ?; subst
             end;
      try contradiction; try congruence; reflexivity.
  - rewrite (run_unsupported h1) by exact Hs.
    rewrite (run_unsupported h2) by (rewrite <- Hsys; exact Hs).
    rewrite Hsys. reflexivity.
Qed.

(** C10. Two runs on hosts with the same system name, in which the
    commands that were executed returned the same codes, execute the same
    command lines, print the same lines and end with the same exit
    status.  The hosts may differ in what other commands would return. *)
Theorem run_is_deterministic (h1 h2 : Host) :
  system h1 = system h2 ->
  statuses (snd (run h1)) = statuses (snd (run h2)) ->
  commands (snd (run h1)) = commands (snd (run h2))
  /\ stdout (snd (run h1)) = stdout (snd (run h2))
  /\ exit_status (fst (run h1)) = exit_status (fst (run h2)).
Proof.
  intros Hsys Hst.
  rewrite (same_answers_same_run h1 h2 Hsys Hst).
  repeat split; reflexivity.
Qed.

Lemma run_is_deterministic_witness :
  commands (snd (run (fails_at "Linux" 1 2))) =
    commands (snd (run fails_at_1_and_3))
  /\ stdout (snd (run (fails_at "Linux" 1 2))) =
       stdout (snd (run fails_at_1_and_3))
  /\ exit_status (fst (run (fails_at "Linux" 1 2))) =
       exit_status (fst (run fails_at_1_and_3)).
Proof.
  apply (run_is_deterministic (fails_at "Linux" 1 2) fails_at_1_and_3).
  - reflexivity.
  - reflexivity.
Defined.

(** * Further properties of the script *)

(** ** Every command is announced before it runs *)

Lemma list_last_cases {A : Type} (l : list A) :
  l = [] \/ exists (l' : list A) (a : A), l = (l' ++ [a])%list.
Proof.
  induction l as [|a l _] using rev_ind; [left; reflexivity|].
  right. exists l, a. reflexivity.
Qed.

Lemma announced_nil : announced [].
Proof.
  intros pre c rc post E. destruct pre; discriminate E.
Qed.

(** An event that is not a command keeps the log announced. *)
Lemma announced_quiet (log : list event) (e : event) :
  (forall c rc, e <> SubprocessRun c rc) ->
  announced log -> announced (log ++ [e]).
Proof.
  intros He Hlog pre c rc post E.
  destruct (list_last_cases post) as [-> | (post' & x & ->)].
  - apply app_inj_tail in E. destruct E as [_ E]. elim (He c rc E).
  - change (pre ++ SubprocessRun c rc :: post' ++ [x])%list
      with (pre ++ (SubprocessRun c rc :: post') ++ [x])%list in E.
    rewrite app_assoc in E. apply app_inj_tail in E. destruct E as [E _].
    exact (Hlog pre c rc post' E).
Qed.

(** A command keeps the log announced when its [Running:] line comes
    first. *)
Lemma announced_command (log : list event) (c : string) (rc : Z) :
  announced log ->
  announced (log ++ [Print ("Running: " ++ c)%string; SubprocessRun c rc]).
Proof.
  intros Hlog pre c' rc' post E.
  change (log ++ [Print ("Running: " ++ c)%string; SubprocessRun c rc])%list
    with (log ++ [Print ("Running: " ++ c)%string] ++ [SubprocessRun c rc])%list
    in E.
  rewrite app_assoc in E.
  destruct (list_last_cases post) as [-> | (post' & x & ->)].
  - apply app_inj_tail in E. destruct E as [<- E].
    injection E as <- _. exists log. reflexivity.
  - change (pre ++ SubprocessRun c' rc' :: post' ++ [x])%list
      with (pre ++ (SubprocessRun c' rc' :: post') ++ [x])%list in E.
    rewrite (app_assoc pre) in E. apply app_inj_tail in E. destruct E as [E _].
    refine (announced_quiet log _ _ Hlog pre c' rc' post' E).
    intros; discriminate.
Qed.

Lemma preserves_ret (I : list event -> Prop) {A : Type} (a : A) :
  preserves I (ret a).
Proof. intros h log Hlog. exact Hlog. Qed.

Lemma preserves_sys_exit (I : list event -> Prop) {A : Type} (code : Z) :
  preserves I (@sys_exit A code).
Proof. intros h log Hlog. exact Hlog. Qed.

Lemma preserves_bind (I : list event -> Prop) {A B : Type}
    (m : Py A) (k : A -> Py B) :
  preserves I m -> (forall a, preserves I (k a)) -> preserves I (bind m k).
Proof.
  intros Hm Hk h log Hlog. unfold bind.
  specialize (Hm h log Hlog).
  destruct (m h log) as [[a | code] log']; cbn [snd] in *.
  - apply Hk, Hm.
  - exact Hm.
Qed.

Lemma print_announced (line : string) : preserves announced (print line).
Proof.
  intros h log Hlog. apply announced_quiet; [|exact Hlog].
  intros; discriminate.
Qed.

Lemma platform_system_announced : preserves announced platform_system.
Proof.
  intros h log Hlog. apply announced_quiet; [|exact Hlog].
  intros; discriminate.
Qed.

Lemma run_command_announced (g : Globals) (cmd : string) (use_msys : bool) :
  preserves announced (run_command g cmd use_msys).
Proof.
  intros h log Hlog. rewrite run_command_eq. cbv zeta. cbn [snd].
  unfold run_command_events.
  destruct (_ =? 0)%Z.
  - apply announced_command, Hlog.
  - change (log ++ [?a; ?b; ?c])%list with (log ++ [a; b] ++ [c])%list.
    rewrite app_assoc. apply announced_quiet; [intros; discriminate|].
    apply announced_command, Hlog.
Qed.

Lemma install_sqlite_announced (g : Globals) :
  preserves announced (install_sqlite g).
Proof.
  unfold install_sqlite.
  apply preserves_bind; [exact platform_system_announced|]. intros s.
  repeat match goal with
         | |- preserves _ (if ?b then _ else _) => destruct b
         | |- preserves _ (bind _ _) => apply preserves_bind; [|intros _]
         end;
    auto using print_announced, run_command_announced, preserves_sys_exit.
Qed.

Lemma build_program_announced (g : Globals) :
  preserves announced (build_program g).
Proof.
  unfold build_program.
  apply preserves_bind; [exact platform_system_announced|]. intros s.
  destruct (s =? "Windows"); apply run_command_announced.
Qed.

Lemma launch_program_announced (g : Globals) :
  preserves announced (launch_program g).
Proof.
  unfold launch_program.
  apply preserves_bind; [apply print_announced|]. intros _.
  apply preserves_bind; [exact platform_system_announced|]. intros s.
  destruct (s =? "Windows"); apply run_command_announced.
Qed.

(** X1. In every run, on any system and whatever the commands return,
    each command line handed to the shell comes right after the printed
    line [Running:] followed by that same command line; the three steps
    and the main block keep this from any log where it holds. *)
Theorem every_command_is_announced (h : Host) :
  announced (snd (run h))
  /\ forall g : Globals, preserves announced (main g).
Proof.
  assert (Hmain : forall g : Globals, preserves announced (main g)).
  { intros g. unfold main.
    apply preserves_bind; [apply install_sqlite_announced|]. intros _.
    apply preserves_bind; [apply build_program_announced|]. intros _.
    apply launch_program_announced. }
  split; [|exact Hmain].
  unfold run, script.
  apply preserves_bind; [| |exact announced_nil].
  - unfold module_globals.
    apply preserves_bind; [exact platform_system_announced|]. intros s.
    apply preserves_ret.
  - exact Hmain.
Qed.

Lemma every_command_is_announced_witness :
  announced (snd (run (fails_at "Windows" 2 3)))
  /\ announced (snd (main (module_body "Linux") (all_ok "Linux") [])).
Proof.
  destruct (every_command_is_announced (fails_at "Windows" 2 3))
    as (Hrun & Hmain).
  split; [exact Hrun|].
  apply (Hmain (module_body "Linux") (all_ok "Linux") []).
  exact announced_nil.
Defined.

(** ** What the exit status tells *)

(** X2. Exit status 0 is reached in one way only: the system is one of
    "Windows", "Linux" and "Darwin", and the run executed three commands
    that all returned 0. *)
Theorem exit_zero_means_all_three_succeeded (h : Host) :
  exit_status (fst (run h)) = 0%Z ->
  supported (system h)
  /\ statuses (snd (run h)) = [0%Z; 0%Z; 0%Z].
Proof.
  destruct (supported_dec (system h)) as [Hs | Hs].
  - destruct (run_supported _ Hs) as (line & icmd & Hrun).
    rewrite (Hrun h eq_refl). unfold three_steps, run_command_events.
    cbv zeta. split_returncodes; project_log; intros Hexit;
      try discriminate Hexit.
    subst. split; [exact Hs | reflexivity].
  - rewrite run_unsupported by exact Hs. cbn [fst exit_status].
    intros Hexit; discriminate Hexit.
Qed.

Lemma exit_zero_means_all_three_succeeded_witness :
  supported "Darwin"
  /\ statuses (snd (run (all_ok "Darwin"))) = [0%Z; 0%Z; 0%Z].
Proof.
  apply (exit_zero_means_all_three_succeeded (all_ok "Darwin")).
  reflexivity.
Defined.

(** X3. A run that ends with a non-zero exit status ends on a printed
    diagnostic: the last thing it did was to print [Command failed:] with a
    command, or [Unsupported OS:] with the system's name.  Nothing is run
    or printed between the diagnostic and the exit. *)
Theorem failed_run_ends_with_diagnostic (h : Host) :
  exit_status (fst (run h)) <> 0%Z ->
  exists line : string,
    last (snd (run h)) (PlatformSystem "") = Print line
    /\ ((exists cmd : string, line = "Command failed: " ++ cmd)
        \/ line = "Unsupported OS: " ++ system h).
Proof.
  destruct (supported_dec (system h)) as [Hs | Hs].
  - destruct (run_supported _ Hs) as (line & icmd & Hrun).
    rewrite (Hrun h eq_refl). unfold three_steps, run_command_events.
    cbv zeta. split_returncodes; cbn [negb fst snd exit_status app last];
      intros Hexit; try (elim Hexit; reflexivity);
      eexists; (split; [reflexivity|]); left; eexists; reflexivity.
  - rewrite run_unsupported by exact Hs. intros _.
    eexists. split; [reflexivity|]. right. reflexivity.
Qed.

Lemma failed_run_ends_with_diagnostic_witness :
  exists line : string,
    last (snd (run (fails_at "Linux" 0 100))) (PlatformSystem "") = Print line
    /\ ((exists cmd : string, line = "Command failed: " ++ cmd)
        \/ line = "Unsupported OS: " ++ "Linux").
Proof.
  apply (failed_run_ends_with_diagnostic (fails_at "Linux" 0 100)).
  vm_compute. discriminate.
Defined.

(** ** Only whether a return code is 0 matters *)

(** X4. The script looks at a return code only to see whether it is 0.
    Two runs on hosts with the same system name, in which the same
    commands returned 0 and the same did not, execute the same command
    lines, print the same lines and end with the same exit status, even
    when the non-zero codes differ: the code a command failed with
    appears neither on the output nor in the exit status. *)
Theorem return_code_value_is_not_observed (h1 h2 : Host) :
  system h1 = system h2 ->
  map (fun rc => (rc =? 0)%Z) (statuses (snd (run h1))) =
    map (fun rc => (rc =? 0)%Z) (statuses (snd (run h2))) ->
  commands (snd (run h1)) = commands (snd (run h2))
  /\ stdout (snd (run h1)) = stdout (snd (run h2))
  /\ exit_status (fst (run h1)) = exit_status (fst (run h2)).
Proof.
  intros Hsys.
  destruct (supported_dec (system h1)) as [Hs | Hs].
  - destruct (run_supported _ Hs) as (line & icmd & Hrun).
    rewrite (Hrun h1 eq_refl), (Hrun h2 (eq_sym Hsys)).
    unfold three_steps, run_command_events, globals_on.
    rewrite <- Hsys. cbv zeta.
    split_returncodes; project_log; cbn [map]; intros Hst; subst;
      repeat match goal with
             | E : ?r <> 0%Z |- _ => apply Z.eqb_neq in E; rewrite ?E in Hst
             end;
      try discriminate Hst; repeat split; reflexivity.
  - rewrite (run_unsupported h1) by exact Hs.
    rewrite (run_unsupported h2) by (rewrite <- Hsys; exact Hs).
    rewrite Hsys. intros _. repeat split; reflexivity.
Qed.

Lemma return_code_value_is_not_observed_witness :
  commands (snd (run (fails_at "Linux" 1 2))) =
    commands (snd (run (fails_at "Linux" 1 127)))
  /\ stdout (snd (run (fails_at "Linux" 1 2))) =
       stdout (snd (run (fails_at "Linux" 1 127)))
  /\ exit_status (fst (run (fails_at "Linux" 1 2))) =
       exit_status (fst (run (fails_at "Linux" 1 127))).
Proof.
  apply (return_code_value_is_not_observed
           (fails_at "Linux" 1 2) (fails_at "Linux" 1 127)).
  - reflexivity.
  - reflexivity.
Defined.

(** ** Systems other than Windows *)

(** X5. On every system whose name is not "Windows" (macOS and, if the
    build and launch steps are called there, any other system too) the
    build step hands the shell exactly [gcc program.c -o program -lsqlite3]
    and the launch step exactly [./program]: neither step goes through
    MSYS2 and neither checks that the system is a supported one. *)
Theorem build_and_launch_off_windows (h : Host) (log : list event) :
  system h <> "Windows" ->
  commands (snd (build_program (globals_on h) h log)) =
    (commands log ++ ["gcc program.c -o program -lsqlite3"])%list
  /\ commands (snd (launch_program (globals_on h) h log)) =
    (commands log ++ ["./program"])%list.
Proof.
  intros Hs. apply String.eqb_neq in Hs.
  rewrite build_program_eq, launch_program_eq.
  rewrite !run_command_commands, !commands_app.
  unfold globals_on, module_body. rewrite Hs.
  cbn [commands full_cmd_of output_exe c_program]. rewrite !app_nil_r.
  split; reflexivity.
Qed.

Lemma build_and_launch_off_windows_witness :
  commands (snd (build_program (globals_on (all_ok "Darwin"))
                   (all_ok "Darwin") [])) =
    ["gcc program.c -o program -lsqlite3"]
  /\ commands (snd (launch_program (globals_on (all_ok "Darwin"))
                      (all_ok "Darwin") [])) =
    ["./program"].
Proof.
  apply (build_and_launch_off_windows (all_ok "Darwin") []).
  discriminate.
Defined.

(** ** No step is skipped, repeated or reordered *)

(** The commands of a run on a supported system are among the first of
    the run in which everything succeeds there. *)
Lemma commands_prefix_of_all_ok_run (h : Host) :
  supported (system h) ->
  exists n : nat,
    (1 <= n <= 3)%nat
    /\ commands (snd (run h)) =
         firstn n (commands (snd (run (all_ok (system h))))).
Proof.
  intros Hs.
  destruct (run_supported _ Hs) as (line & icmd & Hrun).
  rewrite (Hrun h eq_refl), (Hrun (all_ok (system h)) eq_refl).
  unfold three_steps, run_command_events, globals_on, all_ok.
  cbn [returncode system Z.eqb negb]. cbv zeta.
  split_returncodes; project_log;
    first [ exists 3%nat; split; [lia | reflexivity]
          | exists 2%nat; split; [lia | reflexivity]
          | exists 1%nat; split; [lia | reflexivity] ].
Qed.

(** X6. On a supported system the commands of a run are the first one,
    two or three of these, in this order: the install command of the
    system (pacman on Windows, apt on Linux, brew on macOS), then
    [gcc program.c -o <binary> -lsqlite3], then [./<binary>], each inside
    MSYS2 exactly on Windows.  So the install command always runs, the
    steps run in the order install, build, launch, and none runs twice. *)
Theorem commands_are_a_prefix_of_the_pipeline (h : Host) :
  supported (system h) ->
  exists n : nat,
    (1 <= n <= 3)%nat
    /\ commands (snd (run h)) =
         firstn n
           [full_cmd_of (globals_on h)
              (if system h =? "Windows"
               then "pacman -S --needed mingw-w64-ucrt-x86_64-sqlite3"
               else if system h =? "Linux"
               then "sudo apt update && sudo apt install -y libsqlite3-dev"
               else "brew install sqlite")
              (system h =? "Windows");
            full_cmd_of (globals_on h)
              ("gcc program.c -o " ++ output_exe (globals_on h) ++ " -lsqlite3")
              (system h =? "Windows");
            full_cmd_of (globals_on h) ("./" ++ output_exe (globals_on h))
              (system h =? "Windows")].
Proof.
  intros Hs.
  destruct (commands_prefix_of_all_ok_run h Hs) as (n & Hn & E).
  exists n. split; [exact Hn|]. rewrite E. f_equal.
  unfold globals_on.
  destruct Hs as [Hs | [Hs | Hs]]; rewrite Hs; reflexivity.
Qed.

Lemma commands_are_a_prefix_of_the_pipeline_witness :
  exists n : nat,
    (1 <= n <= 3)%nat
    /\ commands (snd (run (fails_at "Windows" 1 1))) =
         firstn n
           [("F:\msys2\ucrt64.exe -c " ++ dquote
             ++ "pacman -S --needed mingw-w64-ucrt-x86_64-sqlite3" ++ dquote)%string;
            ("F:\msys2\ucrt64.exe -c " ++ dquote
             ++ "gcc program.c -o program.exe -lsqlite3" ++ dquote)%string;
            ("F:\msys2\ucrt64.exe -c " ++ dquote ++ "./program.exe"
             ++ dquote)%string].
Proof.
  apply (commands_are_a_prefix_of_the_pipeline (fails_at "Windows" 1 1)).
  left. reflexivity.
Defined.

(** ** The MSYS2 wrapper keeps the command apart *)

Lemma append_inj_l (p a b : string) : p ++ a = p ++ b -> a = b.
Proof.
  induction p as [|c p IH]; cbn [append]; intros E; [exact E|].
  injection E as E. exact (IH E).
Qed.

Lemma append_inj_r (a b s : string) : a ++ s = b ++ s -> a = b.
Proof.
  revert b. induction a as [|c a IH]; intros [|d b] E.
  - reflexivity.
  - apply (f_equal String.length) in E.
    cbn [append String.length] in E. rewrite length_append in E. lia.
  - apply (f_equal String.length) in E.
    cbn [append String.length] in E. rewrite length_append in E. lia.
  - cbn [append] in E. injection E as -> E. f_equal. exact (IH b E).
Qed.

(** X7. The command line that [run_command] builds determines the
    command it was built from: with or without [use_msys], two different
    commands never reach the shell as the same command line. *)
Theorem full_cmd_determines_cmd
    (g : Globals) (cmd1 cmd2 : string) (use_msys : bool) :
  full_cmd_of g cmd1 use_msys = full_cmd_of g cmd2 use_msys ->
  cmd1 = cmd2.
Proof.
  unfold full_cmd_of. destruct use_msys; intros E; [|exact E].
  do 3 apply append_inj_l in E.
  exact (append_inj_r _ _ _ E).
Qed.

Lemma full_cmd_determines_cmd_witness :
  "./program.exe" = "./program.exe".
Proof.
  apply (full_cmd_determines_cmd (module_body "Windows")
           "./program.exe" "./program.exe" true).
  reflexivity.
Defined.

(** ** The [Launching] line *)

(** The install step's line is one of the three [Detected] lines. *)
Lemma run_supported_detected (s : string) :
  supported s ->
  exists line icmd : string,
    In line ["Detected Windows, using MSYS2 UCRT64"; "Detected Linux";
             "Detected macOS"]
    /\ forall h : Host, system h = s -> run h = three_steps h line icmd.
Proof.
  intros Hs.
  destruct (run_supported s Hs) as (line & icmd & Hrun).
  exists line, icmd. split; [|exact Hrun].
  destruct Hs as [-> | [-> | ->]].
  - specialize (Hrun (all_ok "Windows") eq_refl).
    unfold three_steps, run_command_events in Hrun.
    cbn in Hrun. injection Hrun as Hline _. subst line.
    cbn [In]. auto.
  - specialize (Hrun (all_ok "Linux") eq_refl).
    unfold three_steps, run_command_events in Hrun.
    cbn in Hrun. injection Hrun as Hline _. subst line.
    cbn [In]. auto.
  - specialize (Hrun (all_ok "Darwin") eq_refl).
    unfold three_steps, run_command_events in Hrun.
    cbn in Hrun. injection Hrun as Hline _. subst line.
    cbn [In]. auto.
Qed.

(** The line is among those printed exactly when the first two commands
    returned 0. *)
Lemma launching_line_iff (h : Host) :
  In ("Launching " ++ output_exe (globals_on h) ++ "...")
     (stdout (snd (run h)))
  <-> exists rest : list Z,
        statuses (snd (run h)) = (0%Z :: 0%Z :: rest)%list.
Proof.
  destruct (supported_dec (system h)) as [Hs | Hs].
  - destruct (run_supported_detected _ Hs) as (line & icmd & Hline & Hrun).
    rewrite (Hrun h eq_refl). unfold three_steps, run_command_events.
    cbv zeta.
    assert (Hdetected :
      "Launching " ++ output_exe (globals_on h) ++ "..." <> line).
    { unfold globals_on, module_body. cbn [output_exe].
      cbn [In] in Hline.
      destruct (system h =? "Windows");
        destruct Hline as [<- | [<- | [<- | []]]]; discriminate. }
    split_returncodes; project_log; cbn [In]; subst;
      (split;
       [ intros Hin;
         first
           [ eexists; reflexivity
           | repeat match goal with
                    | H : _ \/ _ |- _ => destruct H as [H | H]
                    | H : False |- _ => elim H
                    | H : line = _ |- _ => elim Hdetected; symmetry; exact H
                    | H : (_ ++ _)%string = _ |- _ => discriminate H
                    end ]
       | intros (rest & Hrest);
         first
           [ solve [inversion Hrest; congruence]
           | do 3 right; left; reflexivity ] ]).
  - rewrite run_unsupported by exact Hs. cbn [snd stdout statuses In].
    split.
    + intros [E | []]. discriminate E.
    + intros (rest & E). discriminate E.
Qed.

(** Where an event occurs in a log that is written out, and what the goal
    asks of each occurrence. *)
Ltac scan_log H pre finish :=
  destruct pre as [|? pre]; cbn [app] in H;
  [ first [ discriminate H | injection H; intros; subst; finish ]
  | first [ discriminate H
          | let He := fresh "He" in
            injection H as He H; subst; scan_log H pre finish ] ].

(** X8. In any run the line [Launching <binary>...] is printed exactly
    when the install and build commands both ran and returned 0, and it
    is printed before the launch command runs: wherever the line stands
    in the log, two commands ran before it, both returning 0, and what
    comes next is the launch step asking for the system's name, the
    [Running:] line of the launch command and the launch command itself,
    after which no other command runs. *)
Theorem launching_line_means_build_succeeded (h : Host) :
  (In ("Launching " ++ output_exe (globals_on h) ++ "...")
      (stdout (snd (run h)))
   <-> exists rest : list Z,
         statuses (snd (run h)) = (0%Z :: 0%Z :: rest)%list)
  /\ forall pre post : list event,
       snd (run h) =
         (pre ++ Print ("Launching " ++ output_exe (globals_on h) ++ "...")
              :: post)%list ->
       statuses pre = [0%Z; 0%Z]
       /\ exists (rc : Z) (tail : list event),
            post =
              PlatformSystem (system h)
              :: Print ("Running: "
                        ++ full_cmd_of (globals_on h)
                             ("./" ++ output_exe (globals_on h))
                             (system h =? "Windows"))
              :: SubprocessRun
                   (full_cmd_of (globals_on h)
                      ("./" ++ output_exe (globals_on h))
                      (system h =? "Windows")) rc
              :: tail
            /\ commands tail = [].
Proof.
  split; [apply launching_line_iff|].
  destruct (supported_dec (system h)) as [Hs | Hs].
  - destruct (run_supported_detected _ Hs) as (line & icmd & Hline & Hrun).
    rewrite (Hrun h eq_refl). unfold three_steps, run_command_events.
    cbv zeta. cbn [In] in Hline.
    destruct Hline as [<- | [<- | [<- | []]]];
      split_returncodes; cbn [negb snd app]; subst;
      intros pre post H;
      scan_log H pre
        ltac:(split; [reflexivity | do 2 eexists; split; reflexivity]).
  - rewrite run_unsupported by exact Hs. cbn [snd].
    intros pre post H.
    scan_log H pre ltac:(idtac).
Qed.

Lemma launching_line_means_build_succeeded_witness :
  In "Launching program..." (stdout (snd (run (fails_at "Linux" 2 1)))).
Proof.
  apply (proj2 (proj1 (launching_line_means_build_succeeded
                         (fails_at "Linux" 2 1)))).
  exists [1%Z]. reflexivity.
Defined.
